(** * Spread adjustment on volatility: a shallow embedding

    Embeds [scripts/spreads_adjusted_on_volatility_script.py], the class
    [SpreadsAdjustedOnVolatility(ScriptBase)], and proves what its per-tick
    callback does to the host's parameter object, to the log file and to
    its own fields.

    Modelling choices.
    - A [Decimal] is a rational of [Q]: Python's [==], [<] and [>] on
      decimals are numeric, as are [Qeq], [Qlt]; a literal keeps its digits
      ([Decimal("0.0020")] is [20 # 10000]).  Arithmetic is exact: the
      values stay within the precision of the decimal context.
    - A Python [int] is a [Z].
    - The script object, the parameter object and the two output channels
      (log file, notifications) make up one [World]; a method is a function
      from a world to an outcome and a world, so that what was mutated
      before an exception stays mutated.
    - What the host supplies on a tick (the two volatility queries and the
      Sydney clock) is a [HostTick]. *)

From Stdlib Require Import ZArith QArith Qminmax Qround Qabs Lia Lqa List Ascii.
From stdpp Require Import base strings gmap pretty.
Import ListNotations.

Local Open Scope Z_scope.

(** ** Data *)

(** The instance fields of the script, with the class attributes that the
    instance shadows once it assigns them ([ticks], [hour_of_day]). *)
Record SpreadsAdjustedOnVolatility : Type := mkScript {
  ticks : Z;
  hour_of_day : Z;
  original_bid_spread : option Q;
  original_ask_spread : option Q
}.

(** A value of an attribute of the parameter object that the script never
    looks at. *)
Inductive attr_value : Type :=
| AttrDecimal (d : Q)
| AttrInt (n : Z)
| AttrBool (b : bool)
| AttrStr (s : string).

(** The host's parameter object: the two spreads and every other attribute
    by name. *)
Record PMMParameters : Type := mkParams {
  bid_spread : Q;
  ask_spread : Q;
  other_attrs : gmap string attr_value
}.

(** One line of [logs/logs_script_out.txt], kept as the values that the
    format string of [on_tick] interpolates, in their order and as they are
    before the format rounds them to 5, 7 and 4 decimals: enough to count
    the lines and to tell when two calls log the same one. *)
Record LogLine : Type := mkLogLine {
  ll_stamp : string;
  ll_avg_short_vol : Q;
  ll_median_long_vol : Q;
  ll_spread_adj : Q;
  ll_overnight_spread_adj : Q;
  ll_new_bid : Q;
  ll_new_ask : Q
}.

Record World : Type := mkWorld {
  self : SpreadsAdjustedOnVolatility;
  pmm_parameters : PMMParameters;
  log_file : list LogLine;
  notifications : list string
}.

(** What the host answers during one call of [on_tick]. *)
Record HostTick : Type := mkTick {
  avg_price_volatility : Z -> Z -> option Q;
  median_price_volatility : Z -> Z -> option Q;
  sydney_hour : Z;
  sydney_stamp : string
}.

(** The part of [ScriptBase] that is a pure helper. *)
Class ScriptBase : Type := {
  round_by_step : Q -> Q -> Q
}.

(** ** Class attributes *)

Definition interval : Z := 10.
Definition short_period : Z := 5.
Definition long_period : Z := 900.

(** [__init__], on top of the class attributes [ticks = 0] and
    [hour_of_day = 0]. *)
Definition init : SpreadsAdjustedOnVolatility :=
  {| ticks := 0; hour_of_day := 0;
     original_bid_spread := None; original_ask_spread := None |}.

Definition start (p : PMMParameters) : World :=
  {| self := init; pmm_parameters := p; log_file := []; notifications := [] |}.

(** ** Methods as state transformers that may raise *)

Inductive exn : Type := TypeError.

Inductive outcome (A : Type) : Type :=
| Returned (a : A)
| Raised (e : exn).
Arguments Returned {A} a.
Arguments Raised {A} e.

Definition M (A : Type) : Type := World -> outcome A * World.

Global Instance M_ret : MRet M := fun A (a : A) (w : World) => (Returned a, w).

Global Instance M_bind : MBind M := fun A B (k : A -> M B) (m : M A) (w : World) =>
  match m w with
  | (Returned a, w') => k a w'
  | (Raised e, w') => (Raised e, w')
  end.

Definition raise {A} (e : exn) : M A := fun w => (Raised e, w).

Definition get_self {A} (f : SpreadsAdjustedOnVolatility -> A) : M A :=
  fun w => (Returned (f (self w)), w).

Definition get_param {A} (f : PMMParameters -> A) : M A :=
  fun w => (Returned (f (pmm_parameters w)), w).

Definition set_self (f : SpreadsAdjustedOnVolatility -> SpreadsAdjustedOnVolatility)
  : M unit :=
  fun w => (Returned tt,
            {| self := f (self w); pmm_parameters := pmm_parameters w;
               log_file := log_file w; notifications := notifications w |}).

Definition set_param (f : PMMParameters -> PMMParameters) : M unit :=
  fun w => (Returned tt,
            {| self := self w; pmm_parameters := f (pmm_parameters w);
               log_file := log_file w; notifications := notifications w |}).

Definition with_ticks (n : Z) (s : SpreadsAdjustedOnVolatility) :=
  {| ticks := n; hour_of_day := hour_of_day s;
     original_bid_spread := original_bid_spread s;
     original_ask_spread := original_ask_spread s |}.

Definition with_hour_of_day (h : Z) (s : SpreadsAdjustedOnVolatility) :=
  {| ticks := ticks s; hour_of_day := h;
     original_bid_spread := original_bid_spread s;
     original_ask_spread := original_ask_spread s |}.

Definition with_originals (b a : Q) (s : SpreadsAdjustedOnVolatility) :=
  {| ticks := ticks s; hour_of_day := hour_of_day s;
     original_bid_spread := Some b; original_ask_spread := Some a |}.

Definition with_bid_spread (b : Q) (p : PMMParameters) :=
  {| bid_spread := b; ask_spread := ask_spread p; other_attrs := other_attrs p |}.

Definition with_ask_spread (a : Q) (p : PMMParameters) :=
  {| bid_spread := bid_spread p; ask_spread := a; other_attrs := other_attrs p |}.

(** [ScriptBase.notify] hands the message to the host: the call is recorded
    with its message, in order. *)
Definition notify (msg : string) : M unit :=
  fun w => (Returned tt,
            {| self := self w; pmm_parameters := pmm_parameters w;
               log_file := log_file w; notifications := notifications w ++ [msg] |}).

(** [log_to_file]: opens the file for appending and writes the message and a
    newline; the file can be opened and written. *)
Definition log_to_file (message : LogLine) : M unit :=
  fun w => (Returned tt,
            {| self := self w; pmm_parameters := pmm_parameters w;
               log_file := log_file w ++ [message]; notifications := notifications w |}).

(** An operand of [x + d] or [max(x, d)] for a decimal [d]: [None] raises. *)
Definition decimal_operand (x : option Q) : M Q :=
  match x with
  | Some q => mret q
  | None => raise TypeError
  end.

(** Python's [max(a, b)]: the first argument unless the second is greater. *)
Definition py_max (a b : Q) : Q :=
  match (b ?= a)%Q with
  | Gt => b
  | _ => a
  end.

(** [d == x] for a decimal [d]: numeric on decimals, false on [None]. *)
Definition py_eq (d : Q) (x : option Q) : bool :=
  match x with
  | Some q => Qeq_bool d q
  | None => false
  end.

(** [int.__str__]. *)
Definition str (n : Z) : string := pretty n.

(** Lines 66 and 73-74 of [on_tick]: the widening of the night, from the hour
    of day that line 72 has just stored. *)
Definition overnight_spread_adjustment (hour_of_day : Z) : Q :=
  if (hour_of_day >? 21) || (hour_of_day <? 8) then 20 # 10000 else 0 # 10000.

Section Script.
Context `{ScriptBase}.

(** Lines 63-65 of [on_tick]: the volatility delta and its rounding. *)
Definition spread_adjustment (avg_short_volatility median_long_volatility : Q) : Q :=
  let delta := (avg_short_volatility - median_long_volatility)%Q in
  round_by_step delta (25 # 10000).

Definition on_tick (tick : HostTick) : M unit :=
  ob ← get_self original_bid_spread ;
  match ob with
  | None =>
      b ← get_param bid_spread ;
      a ← get_param ask_spread ;
      set_self (with_originals b a)
  | Some _ => mret tt
  end ;;
  let avg_short_volatility := avg_price_volatility tick interval short_period in
  let median_long_volatility := median_price_volatility tick interval long_period in
  t ← get_self ticks ;
  set_self (with_ticks (t + 1)) ;;
  match avg_short_volatility, median_long_volatility with
  | Some avg_short, Some median_long =>
      t ← get_self ticks ;
      if t =? interval * long_period + 1 then
        notify ("finished calculating averages : " +:+ str t +:+ " ")
      else
        let adj := spread_adjustment avg_short median_long in
        set_self (with_hour_of_day (sydney_hour tick)) ;;
        h ← get_self hour_of_day ;
        let overnight := overnight_spread_adjustment h in
        ob ← get_self original_bid_spread ≫= decimal_operand ;
        let new_bid_spread := (ob + adj + overnight)%Q in
        oa ← get_self original_ask_spread ≫= decimal_operand ;
        let new_ask_spread := (oa + adj + overnight)%Q in
        ob' ← get_self original_bid_spread ≫= decimal_operand ;
        set_param (with_bid_spread (py_max ob' new_bid_spread)) ;;
        oa' ← get_self original_ask_spread ≫= decimal_operand ;
        set_param (with_ask_spread (py_max oa' new_ask_spread)) ;;
        ob'' ← get_self original_bid_spread ;
        if py_eq new_bid_spread ob'' then mret tt
        else
          log_to_file {| ll_stamp := sydney_stamp tick;
                         ll_avg_short_vol := avg_short;
                         ll_median_long_vol := median_long;
                         ll_spread_adj := adj;
                         ll_overnight_spread_adj := overnight;
                         ll_new_bid := new_bid_spread;
                         ll_new_ask := new_ask_spread |}
  | _, _ => mret tt
  end.

(** The host calls [on_tick] once per tick; an exception ends the run. *)
Fixpoint run (ticks_in : list HostTick) : M unit :=
  match ticks_in with
  | [] => mret tt
  | tick :: rest => on_tick tick ;; run rest
  end.

End Script.

Definition on_status : M string :=
  h ← get_self hour_of_day ;
  t ← get_self ticks ;
  mret ("hour of day / ticks since start : " +:+ str h +:+ " + " +:+ str t).

(** The original spreads that a call of [on_tick] in world [w] works with:
    those of the parameter object if none is recorded yet, the recorded
    ones otherwise; none if only the bid spread is recorded. *)
Definition originals_in_force (w : World) : option (Q * Q) :=
  match original_bid_spread (self w), original_ask_spread (self w) with
  | None, _ => Some (bid_spread (pmm_parameters w), ask_spread (pmm_parameters w))
  | Some b, Some a => Some (b, a)
  | Some _, None => None
  end.

(** The tick that only notifies. *)
Definition notify_tick (w : World) : bool :=
  ticks (self w) + 1 =? interval * long_period + 1.

(** Modelled from the spec: [ScriptBase.round_by_step], which the script
    inherits from [hummingbot/script/script_base.py]; that file is not among
    the sources.  The spec has the delta rounded "to nearest 0.25% step": the
    multiple of the step nearest to the number (a tie goes up). *)
Definition round_to_nearest_step (a_number step_size : Q) : Q :=
  (inject_Z (Qfloor (a_number / step_size + (1 # 2))) * step_size)%Q.

Definition spec_script_base : ScriptBase :=
  {| round_by_step := round_to_nearest_step |}.

(** ** Sample inputs *)

Definition sample_params : PMMParameters :=
  {| bid_spread := 8 # 1000; ask_spread := 9 # 1000;
     other_attrs := {[ "order_levels" := AttrInt 1 ]} |}.

Definition sample_tick (avg med : option Q) (h : Z) : HostTick :=
  {| avg_price_volatility := fun _ _ => avg;
     median_price_volatility := fun _ _ => med;
     sydney_hour := h;
     sydney_stamp := "2021-03-01 12:00:00" |}.

Definition sample_world : World := start sample_params.

(** Late evening, short-term volatility 2.6%, long-term 1.5%. *)
Definition evening_tick : HostTick :=
  sample_tick (Some (26 # 1000)%Q) (Some (15 # 1000)%Q) 23.

(** Noon, the long-term median not yet known. *)
Definition early_tick : HostTick := sample_tick (Some (26 # 1000)%Q) None 12.

(** Noon, short-term volatility 0, long-term 1%. *)
Definition calm_tick : HostTick := sample_tick (Some (0 # 1)%Q) (Some (1 # 100)%Q) 12.

(** A world in mid-run, originals recorded. *)
Definition running_world (t : Z) : World :=
  {| self := {| ticks := t; hour_of_day := 9;
                original_bid_spread := Some (8 # 1000);
                original_ask_spread := Some (9 # 1000) |};
     pmm_parameters := {| bid_spread := 105 # 10000; ask_spread := 115 # 10000;
                          other_attrs := {[ "order_levels" := AttrInt 1 ]} |};
     log_file := []; notifications := [] |}.

(** ** Worlds after a call, case by case *)

(** Lines 40-42 and 51: the originals recorded if they were not, one more
    tick counted. *)
Definition ticked (w : World) : World :=
  {| self := {| ticks := ticks (self w) + 1;
                hour_of_day := hour_of_day (self w);
                original_bid_spread :=
                  match original_bid_spread (self w) with
                  | None => Some (bid_spread (pmm_parameters w))
                  | Some b => Some b
                  end;
                original_ask_spread :=
                  match original_bid_spread (self w) with
                  | None => Some (ask_spread (pmm_parameters w))
                  | Some _ => original_ask_spread (self w)
                  end |};
     pmm_parameters := pmm_parameters w;
     log_file := log_file w;
     notifications := notifications w |}.

(** The world after a call that only notifies. *)
Definition notified (w : World) : World :=
  {| self := self (ticked w);
     pmm_parameters := pmm_parameters w;
     log_file := log_file w;
     notifications :=
       notifications w
       ++ ["finished calculating averages : " +:+ str (ticks (self w) + 1) +:+ " "] |}.

Section Adjusted.
Context `{ScriptBase}.

(** The world after a call that reaches the adjustment. *)
Definition adjusted (tick : HostTick) (avg_short median_long ob oa : Q) (w : World)
  : World :=
  let adj := spread_adjustment avg_short median_long in
  let overnight := overnight_spread_adjustment (sydney_hour tick) in
  let new_bid_spread := (ob + adj + overnight)%Q in
  let new_ask_spread := (oa + adj + overnight)%Q in
  {| self := {| ticks := ticks (self w) + 1;
                hour_of_day := sydney_hour tick;
                original_bid_spread := Some ob;
                original_ask_spread := Some oa |};
     pmm_parameters := {| bid_spread := py_max ob new_bid_spread;
                          ask_spread := py_max oa new_ask_spread;
                          other_attrs := other_attrs (pmm_parameters w) |};
     log_file :=
       if Qeq_bool new_bid_spread ob then log_file w
       else log_file w ++ [ {| ll_stamp := sydney_stamp tick;
                               ll_avg_short_vol := avg_short;
                               ll_median_long_vol := median_long;
                               ll_spread_adj := adj;
                               ll_overnight_spread_adj := overnight;
                               ll_new_bid := new_bid_spread;
                               ll_new_ask := new_ask_spread |} ];
     notifications := notifications w |}.

(** The spreads of the parameter object are not below the recorded
    originals [ob] and [oa]. *)
Definition spreads_floor (ob oa : Q) (w : World) : Prop :=
  original_bid_spread (self w) = Some ob /\
  original_ask_spread (self w) = Some oa /\
  (ob <= bid_spread (pmm_parameters w))%Q /\
  (oa <= ask_spread (pmm_parameters w))%Q.

(** The spec's "append a log line if the bid spread changed", for one call
    of [on_tick] in world [w]: one line is appended if and only if the bid
    spread written back differs from the original one. *)
Definition logs_iff_bid_changed (tick : HostTick) (w : World) : Prop :=
  forall ob oa w',
    originals_in_force w = Some (ob, oa) ->
    on_tick tick w = (Returned tt, w') ->
    ((exists line, log_file w' = log_file w ++ [line])
     <-> ~ (bid_spread (pmm_parameters w') == ob)%Q).

End Adjusted.

(** ** Runs of calls *)

(** Both volatility queries of the tick answer a value. *)
Definition both_known (tick : HostTick) : bool :=
  match avg_price_volatility tick interval short_period,
        median_price_volatility tick interval long_period with
  | Some _, Some _ => true
  | _, _ => false
  end.

Section NextWorld.
Context `{ScriptBase}.

(** The world after a call of [on_tick] that works with the originals [ob]
    and [oa]. *)
Definition next_world (tick : HostTick) (ob oa : Q) (w : World) : World :=
  match avg_price_volatility tick interval short_period,
        median_price_volatility tick interval long_period with
  | Some a, Some m =>
      if notify_tick w then notified w else adjusted tick a m ob oa w
  | _, _ => ticked w
  end.

End NextWorld.

(** Two ticks of warm-up. *)
Definition warm_up : list HostTick := [early_tick; early_tick].

(** ** Strings *)

(** No character of the string is a space. *)
Fixpoint no_space (s : string) : Prop :=
  match s with
  | EmptyString => True
  | String c r => c <> " "%char /\ no_space r
  end.

(** ** What one call of [on_tick] does *)

Ltac unfold_script :=
  unfold on_tick, on_status, mbind, M_bind, mret, M_ret, get_self, get_param,
    set_self, set_param, notify, log_to_file, decimal_operand, raise,
    with_originals, with_ticks, with_hour_of_day, with_bid_spread, with_ask_spread.

Section OneTick.
Context `{ScriptBase}.

Lemma on_tick_absent (tick : HostTick) (w : World) :
  avg_price_volatility tick interval short_period = None \/
  median_price_volatility tick interval long_period = None ->
  on_tick tick w = (Returned tt, ticked w).
Proof.
  intros Habs.
  destruct w as [[t h b0 a0] p l n].
  unfold_script; unfold ticked; simpl.
  destruct b0 as [b|]; simpl;
    destruct Habs as [-> | ->]; try reflexivity;
    destruct (avg_price_volatility tick interval short_period); reflexivity.
Qed.

Lemma on_tick_notifies (tick : HostTick) (w : World) (a m : Q) :
  avg_price_volatility tick interval short_period = Some a ->
  median_price_volatility tick interval long_period = Some m ->
  notify_tick w = true ->
  on_tick tick w = (Returned tt, notified w).
Proof.
  intros Ha Hm Hn.
  destruct w as [[t h b0 a0] p l n].
  unfold notify_tick in Hn; simpl in Hn.
  unfold_script; unfold notified, ticked; simpl. rewrite Ha, Hm.
  destruct b0 as [b|]; simpl; rewrite Hn; reflexivity.
Qed.

Lemma on_tick_adjusts (tick : HostTick) (w : World) (a m ob oa : Q) :
  avg_price_volatility tick interval short_period = Some a ->
  median_price_volatility tick interval long_period = Some m ->
  notify_tick w = false ->
  originals_in_force w = Some (ob, oa) ->
  on_tick tick w = (Returned tt, adjusted tick a m ob oa w).
Proof.
  intros Ha Hm Hn Ho.
  destruct w as [[t h b0 a0] p l n].
  unfold notify_tick, originals_in_force in *; simpl in *.
  unfold_script; simpl. rewrite Ha, Hm.
  destruct b0 as [b|]; simpl.
  - destruct a0 as [a1|]; [|discriminate]. injection Ho as -> ->.
    simpl. rewrite Hn. unfold adjusted; simpl.
    destruct (Qeq_bool _ _); reflexivity.
  - injection Ho as <- <-. simpl. rewrite Hn. unfold adjusted; simpl.
    destruct (Qeq_bool _ _); reflexivity.
Qed.

Lemma notify_tick_false (w : World) :
  ticks (self w) + 1 <> interval * long_period + 1 -> notify_tick w = false.
Proof. intros Hne. unfold notify_tick. apply Z.eqb_neq. exact Hne. Qed.

Lemma notify_tick_true (w : World) :
  ticks (self w) + 1 = interval * long_period + 1 -> notify_tick w = true.
Proof. intros He. unfold notify_tick. apply Z.eqb_eq. exact He. Qed.

End OneTick.

(** ** Python's [max] on decimals *)

Lemma py_max_Qmax (a b : Q) : (py_max a b == Qmax a b)%Q.
Proof.
  unfold py_max.
  destruct (Qcompare_spec b a) as [E|L|G].
  - rewrite Q.max_l; [reflexivity | rewrite E; apply Qle_refl].
  - rewrite Q.max_l; [reflexivity | apply Qlt_le_weak, L].
  - rewrite Q.max_r; [reflexivity | apply Qlt_le_weak, G].
Qed.

Lemma py_max_ge_l (a b : Q) : (a <= py_max a b)%Q.
Proof.
  unfold py_max.
  destruct (Qcompare_spec b a) as [E|L|G]; try apply Qle_refl.
  apply Qlt_le_weak, G.
Qed.

Lemma py_max_ge_r (a b : Q) : (b <= py_max a b)%Q.
Proof.
  unfold py_max.
  destruct (Qcompare_spec b a) as [E|L|G].
  - rewrite E; apply Qle_refl.
  - apply Qlt_le_weak, L.
  - apply Qle_refl.
Qed.

Lemma py_max_shift (a d e : Q) : (py_max a (a + d + e) - a == py_max 0 (d + e))%Q.
Proof.
  unfold py_max.
  destruct (Qcompare_spec (a + d + e) a) as [E|L|G];
    destruct (Qcompare_spec (d + e) 0) as [E'|L'|G']; lra.
Qed.

(** The first argument when the second is not greater, the second when it
    is. *)
Lemma py_max_cases (a b : Q) :
  (b <= a)%Q /\ py_max a b = a \/ (a < b)%Q /\ py_max a b = b.
Proof.
  unfold py_max.
  destruct (Qcompare_spec b a) as [E|L|G].
  - left. split; [rewrite E; apply Qle_refl | reflexivity].
  - left. split; [apply Qlt_le_weak, L | reflexivity].
  - right. split; [exact G | reflexivity].
Qed.

Lemma overnight_spread_adjustment_cases (h : Z) :
  (h < 8 \/ 21 < h) /\ overnight_spread_adjustment h = (20 # 10000)%Q \/
  8 <= h <= 21 /\ overnight_spread_adjustment h = (0 # 10000)%Q.
Proof.
  unfold overnight_spread_adjustment.
  destruct (Z.gtb_spec h 21), (Z.ltb_spec h 8); simpl;
    first [ left; split; [lia | reflexivity] | right; split; [lia | reflexivity] ].
Qed.

(** ** The claims about one call *)

Section Claims.
Context `{ScriptBase}.

(** C1. On a tick on which both volatility queries answer a value and
    whose count is not [interval * long_period + 1], [on_tick] returns with
    [bid_spread] set to the maximum of the original bid spread [ob] and
    [ob + round_by_step(avg - median, 0.0025) + overnight], and [ask_spread]
    to the same over the original ask spread [oa], where [overnight] is
    0.0020 when the Sydney hour of the tick is below 8 or above 21 and 0
    otherwise. The maximum is the sum when the sum is greater and the
    original otherwise. *)
Theorem on_tick_sets_spreads (tick : HostTick) (w : World) (a m ob oa : Q) :
  avg_price_volatility tick interval short_period = Some a ->
  median_price_volatility tick interval long_period = Some m ->
  ticks (self w) + 1 <> interval * long_period + 1 ->
  originals_in_force w = Some (ob, oa) ->
  exists w' overnight new_bid new_ask,
    on_tick tick w = (Returned tt, w') /\
    original_bid_spread (self w') = Some ob /\
    original_ask_spread (self w') = Some oa /\
    ((sydney_hour tick < 8 \/ 21 < sydney_hour tick) /\ overnight = (20 # 10000)%Q \/
     8 <= sydney_hour tick <= 21 /\ overnight = (0 # 10000)%Q) /\
    new_bid = (ob + round_by_step (a - m) (25 # 10000) + overnight)%Q /\
    new_ask = (oa + round_by_step (a - m) (25 # 10000) + overnight)%Q /\
    (bid_spread (pmm_parameters w') == Qmax ob new_bid)%Q /\
    ((new_bid <= ob)%Q /\ bid_spread (pmm_parameters w') = ob \/
     (ob < new_bid)%Q /\ bid_spread (pmm_parameters w') = new_bid) /\
    (ask_spread (pmm_parameters w') == Qmax oa new_ask)%Q /\
    ((new_ask <= oa)%Q /\ ask_spread (pmm_parameters w') = oa \/
     (oa < new_ask)%Q /\ ask_spread (pmm_parameters w') = new_ask).
Proof.
  intros Ha Hm Hn Ho.
  exists (adjusted tick a m ob oa w),
         (overnight_spread_adjustment (sydney_hour tick)),
         (ob + round_by_step (a - m) (25 # 10000)
          + overnight_spread_adjustment (sydney_hour tick))%Q,
         (oa + round_by_step (a - m) (25 # 10000)
          + overnight_spread_adjustment (sydney_hour tick))%Q.
  split; [apply on_tick_adjusts; auto using notify_tick_false|].
  unfold adjusted, spread_adjustment; simpl.
  split; [reflexivity|]. split; [reflexivity|].
  split; [apply overnight_spread_adjustment_cases|].
  split; [reflexivity|]. split; [reflexivity|].
  split; [apply py_max_Qmax|]. split; [apply py_max_cases|].
  split; [apply py_max_Qmax | apply py_max_cases].
Qed.

(** C6. When either volatility query answers nothing, [on_tick] returns
    with the parameter object and the log file as they were and nothing
    notified; it has counted the tick and, if no original spreads were
    recorded, recorded those of the parameter object. *)
Theorem on_tick_without_volatility (tick : HostTick) (w : World) :
  avg_price_volatility tick interval short_period = None \/
  median_price_volatility tick interval long_period = None ->
  exists w',
    on_tick tick w = (Returned tt, w') /\
    pmm_parameters w' = pmm_parameters w /\
    log_file w' = log_file w /\
    notifications w' = notifications w /\
    ticks (self w') = ticks (self w) + 1 /\
    hour_of_day (self w') = hour_of_day (self w) /\
    match original_bid_spread (self w) with
    | None =>
        original_bid_spread (self w') = Some (bid_spread (pmm_parameters w)) /\
        original_ask_spread (self w') = Some (ask_spread (pmm_parameters w))
    | Some b =>
        original_bid_spread (self w') = Some b /\
        original_ask_spread (self w') = original_ask_spread (self w)
    end.
Proof.
  intros Habs. exists (ticked w). split.
  - apply on_tick_absent, Habs.
  - unfold ticked; simpl.
    destruct (original_bid_spread (self w)); repeat split.
Qed.

(** C7. Whatever a call of [on_tick] does, and also when it raises, the
    attributes of the parameter object other than [bid_spread] and
    [ask_spread] are as they were. *)
Theorem on_tick_frame (tick : HostTick) (w : World) :
  other_attrs (pmm_parameters (snd (on_tick tick w))) = other_attrs (pmm_parameters w) /\
  forall name : string,
    other_attrs (pmm_parameters (snd (on_tick tick w))) !! name
    = other_attrs (pmm_parameters w) !! name.
Proof.
  assert (E : other_attrs (pmm_parameters (snd (on_tick tick w)))
              = other_attrs (pmm_parameters w)).
  { destruct w as [[t h b0 a0] p l n].
    unfold_script; simpl.
    destruct b0 as [b|]; simpl;
      destruct (avg_price_volatility tick interval short_period); simpl;
      destruct (median_price_volatility tick interval long_period); simpl;
      try reflexivity;
      destruct (t + 1 =? interval * long_period + 1); simpl; try reflexivity;
      try (destruct a0; simpl; try reflexivity);
      destruct (Qeq_bool _ _); reflexivity. }
  split; [exact E | intros name; rewrite E; reflexivity].
Qed.

(** C9. On the tick whose count is [interval * long_period + 1], that is
    9001, with both volatilities known, [on_tick] sends one notification and
    returns: the parameter object, the log file and the recorded hour are
    as they were. *)
Theorem on_tick_notify_only (tick : HostTick) (w : World) (a m : Q) :
  avg_price_volatility tick interval short_period = Some a ->
  median_price_volatility tick interval long_period = Some m ->
  ticks (self w) + 1 = interval * long_period + 1 ->
  exists w',
    on_tick tick w = (Returned tt, w') /\
    ticks (self w') = 9001 /\
    notifications w' = notifications w ++ ["finished calculating averages : 9001 "] /\
    pmm_parameters w' = pmm_parameters w /\
    log_file w' = log_file w /\
    hour_of_day (self w') = hour_of_day (self w).
Proof.
  intros Ha Hm Hn. exists (notified w). split.
  - eapply on_tick_notifies; eauto using notify_tick_true.
  - unfold notified, ticked; simpl. rewrite Hn. repeat split.
Qed.

(** C10. On a tick that writes the spreads, what is added to the bid spread
    is what is added to the ask spread, and it is the maximum of 0 and
    [round_by_step(avg - median, 0.0025) + overnight], [overnight] being
    0.0020 when the Sydney hour of the tick is below 8 or above 21 and 0
    otherwise. *)
Theorem on_tick_same_widening (tick : HostTick) (w : World) (a m ob oa : Q) :
  avg_price_volatility tick interval short_period = Some a ->
  median_price_volatility tick interval long_period = Some m ->
  ticks (self w) + 1 <> interval * long_period + 1 ->
  originals_in_force w = Some (ob, oa) ->
  exists w' overnight,
    on_tick tick w = (Returned tt, w') /\
    ((sydney_hour tick < 8 \/ 21 < sydney_hour tick) /\ overnight = (20 # 10000)%Q \/
     8 <= sydney_hour tick <= 21 /\ overnight = (0 # 10000)%Q) /\
    (bid_spread (pmm_parameters w') - ob == ask_spread (pmm_parameters w') - oa)%Q /\
    (bid_spread (pmm_parameters w') - ob ==
       Qmax 0 (round_by_step (a - m) (25 # 10000) + overnight))%Q /\
    (ask_spread (pmm_parameters w') - oa ==
       Qmax 0 (round_by_step (a - m) (25 # 10000) + overnight))%Q.
Proof.
  intros Ha Hm Hn Ho.
  exists (adjusted tick a m ob oa w), (overnight_spread_adjustment (sydney_hour tick)).
  split; [apply on_tick_adjusts; auto using notify_tick_false|].
  split; [apply overnight_spread_adjustment_cases|].
  unfold adjusted, spread_adjustment; simpl.
  rewrite !py_max_shift, !py_max_Qmax. repeat split; reflexivity.
Qed.

End Claims.

(** ** The night adjustment *)

Lemma overnight_spread_adjustment_night (h : Z) :
  h < 8 \/ 21 < h -> overnight_spread_adjustment h = (20 # 10000)%Q.
Proof.
  intros Hh. unfold overnight_spread_adjustment.
  destruct (Z.gtb_spec h 21), (Z.ltb_spec h 8); simpl; try reflexivity; lia.
Qed.

Lemma overnight_spread_adjustment_day (h : Z) :
  8 <= h <= 21 -> overnight_spread_adjustment h = (0 # 10000)%Q.
Proof.
  intros Hh. unfold overnight_spread_adjustment.
  destruct (Z.gtb_spec h 21), (Z.ltb_spec h 8); simpl; try reflexivity; lia.
Qed.

Section Overnight.
Context `{ScriptBase}.

(** C3. On a tick that reaches the adjustment, [on_tick] records the Sydney
    hour of the tick and adds, on top of the rounded delta, exactly 0.0020
    to both spreads when that hour is below 8 or above 21, and exactly
    0.0000 when it is from 8 to 21. *)
Theorem on_tick_overnight (tick : HostTick) (w : World) (a m ob oa : Q) :
  avg_price_volatility tick interval short_period = Some a ->
  median_price_volatility tick interval long_period = Some m ->
  ticks (self w) + 1 <> interval * long_period + 1 ->
  originals_in_force w = Some (ob, oa) ->
  exists w',
    on_tick tick w = (Returned tt, w') /\
    hour_of_day (self w') = sydney_hour tick /\
    (sydney_hour tick < 8 \/ 21 < sydney_hour tick ->
       bid_spread (pmm_parameters w')
       = py_max ob (ob + spread_adjustment a m + (20 # 10000))%Q /\
       ask_spread (pmm_parameters w')
       = py_max oa (oa + spread_adjustment a m + (20 # 10000))%Q) /\
    (8 <= sydney_hour tick <= 21 ->
       bid_spread (pmm_parameters w')
       = py_max ob (ob + spread_adjustment a m + (0 # 10000))%Q /\
       ask_spread (pmm_parameters w')
       = py_max oa (oa + spread_adjustment a m + (0 # 10000))%Q).
Proof.
  intros Ha Hm Hn Ho.
  exists (adjusted tick a m ob oa w).
  split; [apply on_tick_adjusts; auto using notify_tick_false|].
  unfold adjusted; simpl.
  split; [reflexivity|].
  split; intros Hh.
  - rewrite (overnight_spread_adjustment_night _ Hh). split; reflexivity.
  - rewrite (overnight_spread_adjustment_day _ Hh). split; reflexivity.
Qed.

End Overnight.

(** ** The spreads over a run *)

Section Runs.
Context `{ScriptBase}.

Lemma floor_originals_in_force (ob oa : Q) (w : World) :
  spreads_floor ob oa w -> originals_in_force w = Some (ob, oa).
Proof.
  intros (Hb & Ha & _). unfold originals_in_force. rewrite Hb, Ha. reflexivity.
Qed.

(** One call, from a world whose spreads are not below the originals in
    force, returns and leaves such a world, the originals now recorded. *)
Lemma on_tick_floor (tick : HostTick) (w : World) (ob oa : Q) :
  originals_in_force w = Some (ob, oa) ->
  (ob <= bid_spread (pmm_parameters w))%Q ->
  (oa <= ask_spread (pmm_parameters w))%Q ->
  exists w', on_tick tick w = (Returned tt, w') /\ spreads_floor ob oa w'.
Proof.
  intros Ho Hb Ha.
  assert (Ht : spreads_floor ob oa (ticked w)).
  { unfold spreads_floor, ticked, originals_in_force in *; simpl.
    destruct (original_bid_spread (self w)) as [b|].
    - destruct (original_ask_spread (self w)) as [a'|]; [|discriminate].
      injection Ho as -> ->. auto.
    - injection Ho as <- <-. auto. }
  destruct (avg_price_volatility tick interval short_period) as [a|] eqn:Eavg;
    [destruct (median_price_volatility tick interval long_period) as [m|] eqn:Emed|].
  - destruct (notify_tick w) eqn:En.
    + exists (notified w). split; [eapply on_tick_notifies; eauto|].
      exact Ht.
    + exists (adjusted tick a m ob oa w). split; [apply on_tick_adjusts; auto|].
      unfold spreads_floor, adjusted; simpl.
      auto using py_max_ge_l.
  - exists (ticked w). split; [apply on_tick_absent; auto | exact Ht].
  - exists (ticked w). split; [apply on_tick_absent; auto | exact Ht].
Qed.

Lemma run_floor (ticks_in : list HostTick) (ob oa : Q) :
  forall w, spreads_floor ob oa w ->
    exists w', run ticks_in w = (Returned tt, w') /\ spreads_floor ob oa w'.
Proof.
  induction ticks_in as [|tick rest IH]; intros w Hw.
  - exists w. split; [reflexivity | exact Hw].
  - destruct Hw as (Hb & Ha & Hlb & Hla).
    destruct (on_tick_floor tick w ob oa) as (w1 & E1 & H1); auto.
    { apply floor_originals_in_force. repeat split; assumption. }
    destruct (IH w1 H1) as (w2 & E2 & H2).
    exists w2. split; [|exact H2].
    simpl. unfold mbind, M_bind. rewrite E1. exact E2.
Qed.

(** C4. After every call of [on_tick] in a run that starts with the
    parameter object [p], whatever the host answers on each tick, the call
    has returned, the recorded originals are the spreads of [p], and the
    spreads of the parameter object are not below them. *)
Theorem spreads_never_below_originals
    (p : PMMParameters) (tick : HostTick) (rest : list HostTick) :
  exists w',
    run (tick :: rest) (start p) = (Returned tt, w') /\
    original_bid_spread (self w') = Some (bid_spread p) /\
    original_ask_spread (self w') = Some (ask_spread p) /\
    (bid_spread p <= bid_spread (pmm_parameters w'))%Q /\
    (ask_spread p <= ask_spread (pmm_parameters w'))%Q.
Proof.
  destruct (on_tick_floor tick (start p) (bid_spread p) (ask_spread p))
    as (w1 & E1 & H1); try reflexivity; try apply Qle_refl.
  destruct (run_floor rest _ _ w1 H1) as (w2 & E2 & H2).
  exists w2. split; [|exact H2].
  simpl. unfold mbind, M_bind. rewrite E1. exact E2.
Qed.

End Runs.

(** ** The log file *)

Lemma snoc_not_self {A} (l : list A) (x : A) : l ++ [x] <> l.
Proof.
  intros E. apply (f_equal length) in E.
  rewrite length_app in E. simpl in E. lia.
Qed.

Section Log.
Context `{ScriptBase}.

(** C5, as the code has it. On a tick on which both volatilities are known,
    [on_tick] appends one line to the log file or none; it appends one if
    and only if the tick is not the one that only notifies and the
    adjustment, rounded delta plus night adjustment, is not zero, that is
    the sum computed for the bid spread before the clamp differs from the
    original bid spread. *)
Theorem on_tick_logs_nonzero_adjustment (tick : HostTick) (w : World) (a m ob oa : Q) :
  avg_price_volatility tick interval short_period = Some a ->
  median_price_volatility tick interval long_period = Some m ->
  originals_in_force w = Some (ob, oa) ->
  exists w',
    on_tick tick w = (Returned tt, w') /\
    (log_file w' = log_file w \/ exists line, log_file w' = log_file w ++ [line]) /\
    ((exists line, log_file w' = log_file w ++ [line]) <->
     ticks (self w) + 1 <> interval * long_period + 1 /\
     ~ (spread_adjustment a m + overnight_spread_adjustment (sydney_hour tick) == 0)%Q) /\
    ((exists line, log_file w' = log_file w ++ [line]) <->
     ticks (self w) + 1 <> interval * long_period + 1 /\
     ~ (ob + spread_adjustment a m + overnight_spread_adjustment (sydney_hour tick)
        == ob)%Q).
Proof.
  intros Ha Hm Ho.
  destruct (notify_tick w) eqn:En.
  - exists (notified w). split; [eapply on_tick_notifies; eauto|].
    apply Z.eqb_eq in En. simpl.
    split; [left; reflexivity|].
    split; (split; [intros [line E]; symmetry in E; destruct (snoc_not_self _ _ E)
                   | intros [Hne _]; contradiction]).
  - exists (adjusted tick a m ob oa w). split; [apply on_tick_adjusts; auto|].
    apply Z.eqb_neq in En. unfold adjusted; simpl.
    destruct (Qeq_bool _ ob) eqn:Eq.
    + apply Qeq_bool_iff in Eq.
      split; [left; reflexivity|].
      split; (split; [intros [line E]; symmetry in E; destruct (snoc_not_self _ _ E)
                     | intros [_ Hnz]; exfalso; apply Hnz; lra]).
    + apply Qeq_bool_neq in Eq.
      split; [right; eexists; reflexivity|].
      split; (split; [intros _; split; [exact En | intros Hz; apply Eq; lra]
                     | intros _; eexists; reflexivity]).
Qed.

End Log.

(** C5, as the spec words it, fails: with a short-term volatility of 0 and
    a long-term one of 0.01 at noon, the adjustment is -0.0100, the bid
    spread written back is the original one, and a line is appended. *)
Lemma log_line_though_bid_unchanged :
  ~ @logs_iff_bid_changed spec_script_base calm_tick sample_world.
Proof.
  intros C.
  specialize (C (8 # 1000)%Q (9 # 1000)%Q _ eq_refl eq_refl).
  destruct C as [C _]. apply C.
  - eexists. reflexivity.
  - reflexivity.
Qed.

(** ** Rounding to the nearest step *)

Lemma round_to_nearest_step_bracket (x : Q) :
  let k := Qfloor (x / (25 # 10000) + (1 # 2)) in
  (inject_Z k * (25 # 10000) - (25 # 20000) <= x)%Q /\
  (x < inject_Z k * (25 # 10000) + (25 # 20000))%Q.
Proof.
  intros k.
  pose proof (Qfloor_le (x / (25 # 10000) + (1 # 2))) as Hlo.
  pose proof (Qlt_floor (x / (25 # 10000) + (1 # 2))) as Hhi.
  fold k in Hlo, Hhi.
  rewrite inject_Z_plus in Hhi.
  assert (Ex : (x / (25 # 10000) == x * 400)%Q) by (field).
  rewrite Ex in Hlo, Hhi.
  change (inject_Z 1) with 1%Q in Hhi.
  split; lra.
Qed.

Lemma round_to_nearest_step_nearest (x : Q) (j : Z) :
  (Qabs (x - round_to_nearest_step x (25 # 10000))
   <= Qabs (x - inject_Z j * (25 # 10000)))%Q.
Proof.
  unfold round_to_nearest_step.
  destruct (round_to_nearest_step_bracket x) as [Hlo Hhi].
  set (k := Qfloor (x / (25 # 10000) + (1 # 2))) in *.
  assert (Hj : (j + 1 <= k \/ j = k \/ k + 1 <= j)%Z) by lia.
  destruct Hj as [Hj | [-> | Hj]].
  - rewrite Zle_Qle in Hj. rewrite inject_Z_plus in Hj.
    change (inject_Z 1) with 1%Q in Hj.
    apply Qabs_case; intros; apply Qabs_case; intros; lra.
  - apply Qle_refl.
  - rewrite Zle_Qle in Hj. rewrite inject_Z_plus in Hj.
    change (inject_Z 1) with 1%Q in Hj.
    apply Qabs_case; intros; apply Qabs_case; intros; lra.
Qed.

(** C2, for [round_by_step] as the spec has it. The spread adjustment that
    [on_tick] computes from the two volatilities is an integer multiple of
    0.0025, and no integer multiple of 0.0025 is nearer to the delta. *)
Theorem spread_adjustment_nearest_step (avg_short median_long : Q) :
  exists k : Z,
    @spread_adjustment spec_script_base avg_short median_long
    = (inject_Z k * (25 # 10000))%Q /\
    forall j : Z,
      (Qabs (avg_short - median_long
             - @spread_adjustment spec_script_base avg_short median_long)
       <= Qabs (avg_short - median_long - inject_Z j * (25 # 10000)))%Q.
Proof.
  exists (Qfloor ((avg_short - median_long) / (25 # 10000) + (1 # 2))).
  split; [reflexivity|].
  intros j. exact (round_to_nearest_step_nearest (avg_short - median_long) j).
Qed.

(** ** The status line *)

Lemma pretty_N_char_no_space (x : N) : pretty_N_char x <> " "%char.
Proof. unfold pretty_N_char. repeat case_match; discriminate. Qed.

Lemma pretty_N_go_no_space (x : N) :
  forall s, no_space s -> no_space (pretty_N_go x s).
Proof.
  induction (N.lt_wf_0 x) as [x _ IH]; intros s Hs.
  destruct (decide (x = 0)%N) as [-> | Hx].
  - rewrite pretty_N_go_0. exact Hs.
  - rewrite pretty_N_go_step by lia.
    apply IH.
    + apply N.div_lt; lia.
    + simpl. split; [apply pretty_N_char_no_space | exact Hs].
Qed.

Lemma pretty_N_no_space (x : N) : no_space (pretty x).
Proof.
  unfold pretty, pretty_N. case_decide.
  - simpl. split; [discriminate | exact I].
  - apply pretty_N_go_no_space. exact I.
Qed.

Lemma str_no_space (n : Z) : no_space (str n).
Proof.
  unfold str, pretty, pretty_Z. destruct n as [|p|p].
  - simpl. split; [discriminate | exact I].
  - apply pretty_N_no_space.
  - simpl. split; [discriminate | apply pretty_N_no_space].
Qed.

(** Two strings cut at their first space agree on both sides of it. *)
Lemma split_at_space (s1 : string) :
  forall s2 r1 r2,
    no_space s1 -> no_space s2 ->
    s1 +:+ String " " r1 = s2 +:+ String " " r2 -> s1 = s2 /\ r1 = r2.
Proof.
  induction s1 as [|c s1 IH]; intros [|d s2] r1 r2 H1 H2 E; simpl in *.
  - injection E as ->. split; reflexivity.
  - injection E as <- _. destruct H2 as [H2 _]. destruct (H2 eq_refl).
  - injection E as -> _. destruct H1 as [H1 _]. destruct (H1 eq_refl).
  - injection E as -> E. destruct H1 as [_ H1], H2 as [_ H2].
    destruct (IH _ _ _ H1 H2 E) as [-> ->]. split; reflexivity.
Qed.

(** C8. In every world [on_status] returns the line
    "hour of day / ticks since start : H + T", [H] the recorded hour of day
    and [T] the tick count in decimal, and leaves the world as it was; the
    line tells both numbers, since worlds with the same line have the same
    hour and count. *)
Theorem on_status_reports (w : World) :
  on_status w
  = (Returned ("hour of day / ticks since start : "
               +:+ str (hour_of_day (self w)) +:+ " + " +:+ str (ticks (self w))),
     w) /\
  forall w2 : World,
    fst (on_status w) = fst (on_status w2) ->
    hour_of_day (self w) = hour_of_day (self w2) /\
    ticks (self w) = ticks (self w2).
Proof.
  split; [reflexivity|].
  intros w2 E. unfold_script; simpl in E.
  injection E as E.
  apply split_at_space in E; try apply str_no_space.
  destruct E as [Eh Et]. injection Et as Et.
  unfold str in Eh, Et.
  apply (inj pretty) in Eh. apply (inj pretty) in Et.
  split; assumption.
Qed.

(** ** The theorems at sample inputs *)

(** A late-evening tick in mid-run. *)
Lemma on_tick_sets_spreads_witness :
  exists w' overnight new_bid new_ask,
    @on_tick spec_script_base evening_tick (running_world 41) = (Returned tt, w') /\
    original_bid_spread (self w') = Some (8 # 1000)%Q /\
    original_ask_spread (self w') = Some (9 # 1000)%Q /\
    ((23 < 8 \/ 21 < 23) /\ overnight = (20 # 10000)%Q \/
     8 <= 23 <= 21 /\ overnight = (0 # 10000)%Q) /\
    new_bid = ((8 # 1000)
               + round_to_nearest_step ((26 # 1000) - (15 # 1000)) (25 # 10000)
               + overnight)%Q /\
    new_ask = ((9 # 1000)
               + round_to_nearest_step ((26 # 1000) - (15 # 1000)) (25 # 10000)
               + overnight)%Q /\
    (bid_spread (pmm_parameters w') == Qmax (8 # 1000) new_bid)%Q /\
    ((new_bid <= 8 # 1000)%Q /\ bid_spread (pmm_parameters w') = (8 # 1000)%Q \/
     (8 # 1000 < new_bid)%Q /\ bid_spread (pmm_parameters w') = new_bid) /\
    (ask_spread (pmm_parameters w') == Qmax (9 # 1000) new_ask)%Q /\
    ((new_ask <= 9 # 1000)%Q /\ ask_spread (pmm_parameters w') = (9 # 1000)%Q \/
     (9 # 1000 < new_ask)%Q /\ ask_spread (pmm_parameters w') = new_ask).
Proof.
  apply (@on_tick_sets_spreads spec_script_base evening_tick (running_world 41)
           (26 # 1000)%Q (15 # 1000)%Q (8 # 1000)%Q (9 # 1000)%Q).
  - reflexivity.
  - reflexivity.
  - vm_compute. discriminate.
  - reflexivity.
Defined.

Lemma on_tick_overnight_witness :
  exists w',
    @on_tick spec_script_base evening_tick sample_world = (Returned tt, w') /\
    hour_of_day (self w') = 23 /\
    (23 < 8 \/ 21 < 23 ->
       bid_spread (pmm_parameters w')
       = py_max (8 # 1000)
           ((8 # 1000) + @spread_adjustment spec_script_base (26 # 1000) (15 # 1000)
            + (20 # 10000))%Q /\
       ask_spread (pmm_parameters w')
       = py_max (9 # 1000)
           ((9 # 1000) + @spread_adjustment spec_script_base (26 # 1000) (15 # 1000)
            + (20 # 10000))%Q) /\
    (8 <= 23 <= 21 ->
       bid_spread (pmm_parameters w')
       = py_max (8 # 1000)
           ((8 # 1000) + @spread_adjustment spec_script_base (26 # 1000) (15 # 1000)
            + (0 # 10000))%Q /\
       ask_spread (pmm_parameters w')
       = py_max (9 # 1000)
           ((9 # 1000) + @spread_adjustment spec_script_base (26 # 1000) (15 # 1000)
            + (0 # 10000))%Q).
Proof.
  apply (@on_tick_overnight spec_script_base evening_tick sample_world
           (26 # 1000)%Q (15 # 1000)%Q (8 # 1000)%Q (9 # 1000)%Q).
  - reflexivity.
  - reflexivity.
  - vm_compute. discriminate.
  - reflexivity.
Defined.

(** The first tick of a run, the long-term median not yet known. *)
Lemma on_tick_without_volatility_witness :
  exists w',
    @on_tick spec_script_base early_tick sample_world = (Returned tt, w') /\
    pmm_parameters w' = pmm_parameters sample_world /\
    log_file w' = log_file sample_world /\
    notifications w' = notifications sample_world /\
    ticks (self w') = ticks (self sample_world) + 1 /\
    hour_of_day (self w') = hour_of_day (self sample_world) /\
    original_bid_spread (self w') = Some (bid_spread (pmm_parameters sample_world)) /\
    original_ask_spread (self w') = Some (ask_spread (pmm_parameters sample_world)).
Proof.
  apply (@on_tick_without_volatility spec_script_base early_tick sample_world).
  right. reflexivity.
Defined.

(** Tick 9001 of a run. *)
Lemma on_tick_notify_only_witness :
  exists w',
    @on_tick spec_script_base evening_tick (running_world 9000) = (Returned tt, w') /\
    ticks (self w') = 9001 /\
    notifications w' = notifications (running_world 9000) ++ ["finished calculating averages : 9001 "] /\
    pmm_parameters w' = pmm_parameters (running_world 9000) /\
    log_file w' = log_file (running_world 9000) /\
    hour_of_day (self w') = hour_of_day (self (running_world 9000)).
Proof.
  apply (@on_tick_notify_only spec_script_base evening_tick (running_world 9000) (26 # 1000)%Q (15 # 1000)%Q).
  - reflexivity.
  - reflexivity.
  - reflexivity.
Defined.

Lemma on_tick_same_widening_witness :
  exists w' overnight,
    @on_tick spec_script_base evening_tick (running_world 41) = (Returned tt, w') /\
    ((23 < 8 \/ 21 < 23) /\ overnight = (20 # 10000)%Q \/
     8 <= 23 <= 21 /\ overnight = (0 # 10000)%Q) /\
    (bid_spread (pmm_parameters w') - (8 # 1000)
     == ask_spread (pmm_parameters w') - (9 # 1000))%Q /\
    (bid_spread (pmm_parameters w') - (8 # 1000) ==
       Qmax 0 (round_to_nearest_step ((26 # 1000) - (15 # 1000)) (25 # 10000)
               + overnight))%Q /\
    (ask_spread (pmm_parameters w') - (9 # 1000) ==
       Qmax 0 (round_to_nearest_step ((26 # 1000) - (15 # 1000)) (25 # 10000)
               + overnight))%Q.
Proof.
  apply (@on_tick_same_widening spec_script_base evening_tick (running_world 41)
           (26 # 1000)%Q (15 # 1000)%Q (8 # 1000)%Q (9 # 1000)%Q).
  - reflexivity.
  - reflexivity.
  - vm_compute. discriminate.
  - reflexivity.
Defined.

(** A calm noon: the adjustment is negative, a line is logged. *)
Lemma on_tick_logs_nonzero_adjustment_witness :
  exists w',
    @on_tick spec_script_base calm_tick sample_world = (Returned tt, w') /\
    (log_file w' = log_file sample_world \/ exists line, log_file w' = log_file sample_world ++ [line]) /\
    ((exists line, log_file w' = log_file sample_world ++ [line]) <->
     ticks (self sample_world) + 1 <> interval * long_period + 1 /\
     ~ (@spread_adjustment spec_script_base (0 # 1) (1 # 100)
        + overnight_spread_adjustment 12 == 0)%Q) /\
    ((exists line, log_file w' = log_file sample_world ++ [line]) <->
     ticks (self sample_world) + 1 <> interval * long_period + 1 /\
     ~ ((8 # 1000) + @spread_adjustment spec_script_base (0 # 1) (1 # 100)
        + overnight_spread_adjustment 12 == 8 # 1000)%Q).
Proof.
  apply (@on_tick_logs_nonzero_adjustment spec_script_base calm_tick sample_world
           (0 # 1)%Q (1 # 100)%Q (8 # 1000)%Q (9 # 1000)%Q).
  - reflexivity.
  - reflexivity.
  - reflexivity.
Defined.

(** ** Beyond one call: runs, errors, the log *)

Section RunLemmas.
Context `{ScriptBase}.

Lemma run_cons (tick : HostTick) (rest : list HostTick) (w : World) :
  run (tick :: rest) w
  = match on_tick tick w with
    | (Returned _, w1) => run rest w1
    | (Raised e, w1) => (Raised e, w1)
    end.
Proof. reflexivity. Qed.

Lemma on_tick_next (tick : HostTick) (w : World) (ob oa : Q) :
  originals_in_force w = Some (ob, oa) ->
  on_tick tick w = (Returned tt, next_world tick ob oa w).
Proof.
  intros Ho. unfold next_world.
  destruct (avg_price_volatility tick interval short_period) as [a|] eqn:Ea;
    [destruct (median_price_volatility tick interval long_period) as [m|] eqn:Em|].
  - destruct (notify_tick w) eqn:En.
    + eapply on_tick_notifies; eauto.
    + apply on_tick_adjusts; auto.
  - apply on_tick_absent; auto.
  - apply on_tick_absent; auto.
Qed.

Lemma ticked_originals (w : World) (ob oa : Q) :
  originals_in_force w = Some (ob, oa) ->
  original_bid_spread (self (ticked w)) = Some ob /\
  original_ask_spread (self (ticked w)) = Some oa.
Proof.
  unfold originals_in_force, ticked; simpl.
  destruct (original_bid_spread (self w)) as [b|].
  - destruct (original_ask_spread (self w)) as [a|]; [|discriminate].
    intros [= -> ->]. split; reflexivity.
  - intros [= <- <-]. split; reflexivity.
Qed.

Lemma next_world_originals (tick : HostTick) (w : World) (ob oa : Q) :
  originals_in_force w = Some (ob, oa) ->
  original_bid_spread (self (next_world tick ob oa w)) = Some ob /\
  original_ask_spread (self (next_world tick ob oa w)) = Some oa.
Proof.
  intros Ho. pose proof (ticked_originals w ob oa Ho) as Ht.
  unfold next_world.
  destruct (avg_price_volatility tick interval short_period) as [a|];
    [destruct (median_price_volatility tick interval long_period) as [m|]|];
    try exact Ht.
  destruct (notify_tick w); [exact Ht | split; reflexivity].
Qed.

Lemma next_world_in_force (tick : HostTick) (w : World) (ob oa : Q) :
  originals_in_force w = Some (ob, oa) ->
  originals_in_force (next_world tick ob oa w) = Some (ob, oa).
Proof.
  intros Ho. destruct (next_world_originals tick w ob oa Ho) as [Hb Ha].
  unfold originals_in_force. rewrite Hb, Ha. reflexivity.
Qed.

Lemma next_world_ticks (tick : HostTick) (w : World) (ob oa : Q) :
  ticks (self (next_world tick ob oa w)) = ticks (self w) + 1.
Proof.
  unfold next_world.
  destruct (avg_price_volatility tick interval short_period) as [a|];
    [destruct (median_price_volatility tick interval long_period) as [m|]|];
    try reflexivity.
  destruct (notify_tick w); reflexivity.
Qed.

Lemma next_world_notifications (tick : HostTick) (w : World) (ob oa : Q) :
  notifications (next_world tick ob oa w)
  = notifications w
    ++ (if both_known tick && notify_tick w
        then ["finished calculating averages : " +:+ str (ticks (self w) + 1) +:+ " "]
        else []).
Proof.
  unfold next_world, both_known.
  destruct (avg_price_volatility tick interval short_period) as [a|];
    [destruct (median_price_volatility tick interval long_period) as [m|]|];
    simpl; try (symmetry; apply app_nil_r).
  destruct (notify_tick w); simpl; [reflexivity | symmetry; apply app_nil_r].
Qed.

(** A run from a world whose originals are in force returns, with the same
    originals in force and one tick counted per call. *)
Lemma run_returns (ticks_in : list HostTick) (ob oa : Q) :
  forall w, originals_in_force w = Some (ob, oa) ->
    exists w',
      run ticks_in w = (Returned tt, w') /\
      originals_in_force w' = Some (ob, oa) /\
      ticks (self w') = ticks (self w) + Z.of_nat (length ticks_in).
Proof.
  induction ticks_in as [|tick rest IH]; intros w Ho.
  - exists w. repeat split; [exact Ho | simpl; lia].
  - destruct (IH (next_world tick ob oa w)) as (w' & E & Ho' & Ht).
    { apply next_world_in_force, Ho. }
    exists w'. rewrite run_cons, (on_tick_next tick w ob oa Ho).
    repeat split; [exact E | exact Ho' |].
    rewrite Ht, next_world_ticks. simpl length. lia.
Qed.

Lemma start_in_force (p : PMMParameters) :
  originals_in_force (start p) = Some (bid_spread p, ask_spread p).
Proof. reflexivity. Qed.

(** One call counts one tick, in any world and also when it raises. *)
Lemma on_tick_counts (tick : HostTick) (w : World) :
  ticks (self (snd (on_tick tick w))) = ticks (self w) + 1.
Proof.
  destruct w as [[t h b0 a0] p l n].
  unfold_script; simpl.
  destruct b0 as [b|]; simpl;
    destruct (avg_price_volatility tick interval short_period); simpl;
    destruct (median_price_volatility tick interval long_period); simpl;
    try reflexivity;
    destruct (t + 1 =? interval * long_period + 1); simpl; try reflexivity;
    try (destruct a0; simpl; try reflexivity);
    destruct (Qeq_bool _ _); reflexivity.
Qed.

(** X1. Every call of [on_tick] counts one tick, in any world and also when
    it raises: a call without volatilities and the call that only notifies
    count as well. Over a run of calls the counter never goes back and grows
    by at most the number of ticks of the run, and by exactly that number
    when the run is not ended by an exception. *)
Theorem run_counts_every_call (ticks_in : list HostTick) (w : World) :
  (forall tick, ticks (self (snd (on_tick tick w))) = ticks (self w) + 1) /\
  ticks (self w) <= ticks (self (snd (run ticks_in w)))
    <= ticks (self w) + Z.of_nat (length ticks_in) /\
  (fst (run ticks_in w) = Returned tt ->
   ticks (self (snd (run ticks_in w))) = ticks (self w) + Z.of_nat (length ticks_in)).
Proof.
  split; [intros tick; apply on_tick_counts|].
  revert w. induction ticks_in as [|tick rest IH]; intros w.
  - simpl. split; [lia | intros _; lia].
  - rewrite run_cons. pose proof (on_tick_counts tick w) as Hc.
    destruct (on_tick tick w) as [[[]|e] w1]; simpl in Hc.
    + destruct (IH w1) as [Hb He]. rewrite Hc in Hb, He.
      split; [simpl length; lia | intros Hr; rewrite (He Hr); simpl length; lia].
    + simpl. split; [lia | discriminate].
Qed.

End RunLemmas.

Section Notifications.
Context `{ScriptBase}.

Lemma run_notifications (ticks_in : list HostTick) (ob oa : Q) :
  forall w, originals_in_force w = Some (ob, oa) ->
    exists w',
      run ticks_in w = (Returned tt, w') /\
      notifications w'
      = notifications w
        ++ (if ticks (self w) <=? interval * long_period then
              match ticks_in !! Z.to_nat (interval * long_period - ticks (self w)) with
              | Some tick =>
                  if both_known tick
                  then ["finished calculating averages : 9001 "] else []
              | None => []
              end
            else []).
Proof.
  induction ticks_in as [|tick rest IH]; intros w Ho.
  - exists w. split; [reflexivity|].
    destruct (_ <=? _); simpl; symmetry; apply app_nil_r.
  - destruct (IH (next_world tick ob oa w)) as (w' & E & Hn).
    { apply next_world_in_force, Ho. }
    exists w'. rewrite run_cons, (on_tick_next tick w ob oa Ho).
    split; [exact E|].
    rewrite Hn, next_world_notifications, next_world_ticks.
    rewrite <- app_assoc. f_equal.
    unfold notify_tick.
    change (interval * long_period) with 9000.
    destruct (Z.leb_spec (ticks (self w)) 9000) as [Hle|Hgt].
    + destruct (Z.eqb_spec (ticks (self w) + 1) (9000 + 1)) as [He|Hne].
      * assert (Et : ticks (self w) = 9000) by lia.
        rewrite Et. simpl.
        destruct (both_known tick); reflexivity.
      * rewrite andb_false_r. simpl.
        destruct (Z.leb_spec (ticks (self w) + 1) 9000) as [_|Hgt]; [|lia].
        replace (Z.to_nat (9000 - ticks (self w)))
          with (S (Z.to_nat (9000 - (ticks (self w) + 1)))) by lia.
        reflexivity.
    + destruct (Z.eqb_spec (ticks (self w) + 1) (9000 + 1)) as [He|Hne]; [lia|].
      rewrite andb_false_r. simpl.
      destruct (Z.leb_spec (ticks (self w) + 1) 9000) as [Hle|_]; [lia|].
      reflexivity.
Qed.

(** X2. Over a run of calls from a fresh script object the host is
    notified at most once: the notifications are the one message of call
    9001 if the run is that long and both volatilities are known at that
    call, and none otherwise, however long the run goes on. *)
Theorem run_notifies_at_call_9001 (p : PMMParameters) (ticks_in : list HostTick) :
  exists w',
    run ticks_in (start p) = (Returned tt, w') /\
    notifications w'
    = match ticks_in !! Z.to_nat (interval * long_period) with
      | Some tick =>
          if both_known tick then ["finished calculating averages : 9001 "] else []
      | None => []
      end.
Proof.
  destruct (run_notifications ticks_in _ _ (start p) (start_in_force p))
    as (w' & E & Hn).
  exists w'. split; [exact E | exact Hn].
Qed.

End Notifications.

Section LogOverRuns.
Context `{ScriptBase}.

(** One call, in any world and also when it raises, keeps the lines of the
    log and appends at most one. *)
Lemma on_tick_appends (tick : HostTick) (w : World) :
  exists added,
    log_file (snd (on_tick tick w)) = log_file w ++ added /\
    (length added <= 1)%nat.
Proof.
  destruct w as [[t h b0 a0] p l n].
  unfold_script; simpl.
  destruct b0 as [b|]; simpl;
    destruct (avg_price_volatility tick interval short_period); simpl;
    destruct (median_price_volatility tick interval long_period); simpl;
    try (exists []; split; [symmetry; apply app_nil_r | simpl; lia]);
    destruct (t + 1 =? interval * long_period + 1); simpl;
    try (exists []; split; [symmetry; apply app_nil_r | simpl; lia]);
    try (destruct a0; simpl;
         try (exists []; split; [symmetry; apply app_nil_r | simpl; lia]));
    destruct (Qeq_bool _ _); simpl;
    first [ exists []; split; [symmetry; apply app_nil_r | simpl; lia]
          | eexists [_]; split; [reflexivity | simpl; lia] ].
Qed.

(** X3. The log file is append-only: after a run of calls from any world,
    also a run that an exception ends, the lines that were in the log are
    still there, in place, and at most one line per tick of the run has
    been added. *)
Theorem run_log_append_only (ticks_in : list HostTick) :
  forall w : World,
    exists added,
      log_file (snd (run ticks_in w)) = log_file w ++ added /\
      (length added <= length ticks_in)%nat.
Proof.
  induction ticks_in as [|tick rest IH]; intros w.
  - exists []. split; [symmetry; apply app_nil_r | simpl; lia].
  - rewrite run_cons.
    destruct (on_tick_appends tick w) as (a1 & E1 & L1).
    destruct (on_tick tick w) as [[[]|e] w1]; simpl in E1.
    + destruct (IH w1) as (a2 & E2 & L2).
      exists (a1 ++ a2). rewrite E2, E1, app_assoc.
      split; [reflexivity | rewrite length_app; simpl; lia].
    + exists a1. simpl. split; [exact E1 | simpl; lia].
Qed.

(** X5. While the host has no volatility to answer, a run of calls from a
    fresh script object only counts: the parameter object is the one the
    run started with, nothing is logged or notified, and the recorded hour
    of day stays 0. *)
Theorem run_warm_up_inert (p : PMMParameters) (ticks_in : list HostTick) :
  Forall (fun tick => both_known tick = false) ticks_in ->
  exists w',
    run ticks_in (start p) = (Returned tt, w') /\
    pmm_parameters w' = p /\
    log_file w' = [] /\
    notifications w' = [] /\
    hour_of_day (self w') = 0 /\
    ticks (self w') = Z.of_nat (length ticks_in).
Proof.
  intros Hall.
  assert (G : forall w, originals_in_force w = Some (bid_spread p, ask_spread p) ->
            exists w', run ticks_in w = (Returned tt, w') /\
              pmm_parameters w' = pmm_parameters w /\
              log_file w' = log_file w /\
              notifications w' = notifications w /\
              hour_of_day (self w') = hour_of_day (self w) /\
              ticks (self w') = ticks (self w) + Z.of_nat (length ticks_in)).
  { induction Hall as [|tick rest Hk _ IH]; intros w Ho.
    - exists w. repeat split. simpl; lia.
    - assert (En : next_world tick (bid_spread p) (ask_spread p) w = ticked w).
      { unfold next_world, both_known in *.
        destruct (avg_price_volatility tick interval short_period);
          [destruct (median_price_volatility tick interval long_period)|];
          [discriminate | reflexivity | reflexivity]. }
      destruct (IH (ticked w)) as (w' & E & Hp & Hl & Hn & Hh & Ht).
      { rewrite <- En. apply next_world_in_force, Ho. }
      exists w'. rewrite run_cons, (on_tick_next tick w _ _ Ho), En.
      repeat split; try assumption.
      rewrite Ht. simpl ticks. simpl length. lia. }
  destruct (G (start p) (start_in_force p)) as (w' & E & Hp & Hl & Hn & Hh & Ht).
  exists w'. repeat split; assumption.
Qed.

End LogOverRuns.

Section ErrorsAndRepeats.
Context `{ScriptBase}.



End ErrorsAndRepeats.

(** ** The further theorems at sample inputs *)

Lemma run_warm_up_inert_witness :
  exists w',
    @run spec_script_base warm_up (start sample_params) = (Returned tt, w') /\
    pmm_parameters w' = sample_params /\
    log_file w' = [] /\
    notifications w' = [] /\
    hour_of_day (self w') = 0 /\
    ticks (self w') = Z.of_nat (length warm_up).
Proof.
  apply (@run_warm_up_inert spec_script_base sample_params warm_up).
  repeat constructor.
Defined.


(** ** The last tick of a run *)

Section LastTick.
Context `{ScriptBase}.

Lemma next_world_other_attrs (tick : HostTick) (w : World) (ob oa : Q) :
  other_attrs (pmm_parameters (next_world tick ob oa w))
  = other_attrs (pmm_parameters w).
Proof.
  unfold next_world.
  destruct (avg_price_volatility tick interval short_period) as [a|];
    [destruct (median_price_volatility tick interval long_period) as [m|]|];
    try reflexivity.
  destruct (notify_tick w); reflexivity.
Qed.

Lemma run_snoc (ticks_in : list HostTick) (tick : HostTick) (ob oa : Q) :
  forall w, originals_in_force w = Some (ob, oa) ->
    exists w1,
      run ticks_in w = (Returned tt, w1) /\
      originals_in_force w1 = Some (ob, oa) /\
      ticks (self w1) = ticks (self w) + Z.of_nat (length ticks_in) /\
      other_attrs (pmm_parameters w1) = other_attrs (pmm_parameters w) /\
      run (ticks_in ++ [tick]) w = (Returned tt, next_world tick ob oa w1).
Proof.
  induction ticks_in as [|t0 rest IH]; intros w Ho.
  - exists w. repeat split; [exact Ho | simpl; lia |].
    simpl app. rewrite run_cons, (on_tick_next tick w ob oa Ho). reflexivity.
  - destruct (IH (next_world t0 ob oa w)) as (w1 & E & Ho1 & Ht & Hat & Es).
    { apply next_world_in_force, Ho. }
    exists w1. simpl app. rewrite !run_cons, (on_tick_next t0 w ob oa Ho).
    repeat split; [exact E | exact Ho1 | | | exact Es].
    + rewrite Ht, next_world_ticks. simpl length. lia.
    + rewrite Hat. apply next_world_other_attrs.
Qed.

(** X8. The spreads depend on the last tick only, not on the run before
    it. After any run of calls from a fresh script object with parameter
    object [p], a further call on which both volatilities are known, and
    which is not call 9001, leaves each spread at the maximum of the spread
    of [p] and that spread plus the rounded delta and the night adjustment
    of that call (0.0020 when its Sydney hour is below 8 or above 21, 0
    otherwise), the recorded hour at that hour, and the other attributes as
    in [p]. *)
Theorem run_last_tick_decides
    (p : PMMParameters) (ticks_in : list HostTick) (tick : HostTick) (a m : Q) :
  avg_price_volatility tick interval short_period = Some a ->
  median_price_volatility tick interval long_period = Some m ->
  length ticks_in <> Z.to_nat (interval * long_period) ->
  exists w' overnight new_bid new_ask,
    run (ticks_in ++ [tick]) (start p) = (Returned tt, w') /\
    ((sydney_hour tick < 8 \/ 21 < sydney_hour tick) /\ overnight = (20 # 10000)%Q \/
     8 <= sydney_hour tick <= 21 /\ overnight = (0 # 10000)%Q) /\
    new_bid = (bid_spread p + round_by_step (a - m) (25 # 10000) + overnight)%Q /\
    new_ask = (ask_spread p + round_by_step (a - m) (25 # 10000) + overnight)%Q /\
    (bid_spread (pmm_parameters w') == Qmax (bid_spread p) new_bid)%Q /\
    ((new_bid <= bid_spread p)%Q /\ bid_spread (pmm_parameters w') = bid_spread p \/
     (bid_spread p < new_bid)%Q /\ bid_spread (pmm_parameters w') = new_bid) /\
    (ask_spread (pmm_parameters w') == Qmax (ask_spread p) new_ask)%Q /\
    ((new_ask <= ask_spread p)%Q /\ ask_spread (pmm_parameters w') = ask_spread p \/
     (ask_spread p < new_ask)%Q /\ ask_spread (pmm_parameters w') = new_ask) /\
    hour_of_day (self w') = sydney_hour tick /\
    other_attrs (pmm_parameters w') = other_attrs p.
Proof.
  intros Ha Hm Hlen.
  destruct (run_snoc ticks_in tick _ _ (start p) (start_in_force p))
    as (w1 & E1 & Ho1 & Ht & Hattrs & Es).
  exists (next_world tick (bid_spread p) (ask_spread p) w1),
         (overnight_spread_adjustment (sydney_hour tick)),
         (bid_spread p + round_by_step (a - m) (25 # 10000)
          + overnight_spread_adjustment (sydney_hour tick))%Q,
         (ask_spread p + round_by_step (a - m) (25 # 10000)
          + overnight_spread_adjustment (sydney_hour tick))%Q.
  split; [exact Es|].
  split; [apply overnight_spread_adjustment_cases|].
  split; [reflexivity|]. split; [reflexivity|].
  unfold next_world. rewrite Ha, Hm.
  assert (En : notify_tick w1 = false).
  { apply notify_tick_false. rewrite Ht.
    change (interval * long_period) with 9000 in *. simpl ticks. lia. }
  rewrite En. unfold adjusted, spread_adjustment; simpl.
  split; [apply py_max_Qmax|]. split; [apply py_max_cases|].
  split; [apply py_max_Qmax|]. split; [apply py_max_cases|].
  split; [reflexivity | exact Hattrs].
Qed.

End LastTick.

Lemma run_last_tick_decides_witness :
  exists w' overnight new_bid new_ask,
    @run spec_script_base (warm_up ++ [evening_tick]) (start sample_params)
    = (Returned tt, w') /\
    ((sydney_hour evening_tick < 8 \/ 21 < sydney_hour evening_tick)
     /\ overnight = (20 # 10000)%Q \/
     8 <= sydney_hour evening_tick <= 21 /\ overnight = (0 # 10000)%Q) /\
    new_bid = (bid_spread sample_params
               + round_to_nearest_step ((26 # 1000) - (15 # 1000)) (25 # 10000)
               + overnight)%Q /\
    new_ask = (ask_spread sample_params
               + round_to_nearest_step ((26 # 1000) - (15 # 1000)) (25 # 10000)
               + overnight)%Q /\
    (bid_spread (pmm_parameters w') == Qmax (bid_spread sample_params) new_bid)%Q /\
    ((new_bid <= bid_spread sample_params)%Q
     /\ bid_spread (pmm_parameters w') = bid_spread sample_params \/
     (bid_spread sample_params < new_bid)%Q
     /\ bid_spread (pmm_parameters w') = new_bid) /\
    (ask_spread (pmm_parameters w') == Qmax (ask_spread sample_params) new_ask)%Q /\
    ((new_ask <= ask_spread sample_params)%Q
     /\ ask_spread (pmm_parameters w') = ask_spread sample_params \/
     (ask_spread sample_params < new_ask)%Q
     /\ ask_spread (pmm_parameters w') = new_ask) /\
    hour_of_day (self w') = sydney_hour evening_tick /\
    other_attrs (pmm_parameters w') = other_attrs sample_params.
Proof.
  apply (@run_last_tick_decides spec_script_base sample_params warm_up evening_tick
           (26 # 1000)%Q (15 # 1000)%Q).
  - reflexivity.
  - reflexivity.
  - change (interval * long_period) with 9000. simpl length. lia.
Defined.

(** Two ticks of warm-up and an evening tick: the run returns, three ticks
    are counted. *)
Lemma run_counts_every_call_witness :
  ticks (self (snd (@run spec_script_base (warm_up ++ [evening_tick])
                      (start sample_params))))
  = ticks (self (start sample_params))
    + Z.of_nat (length (warm_up ++ [evening_tick])).
Proof.
  apply (@run_counts_every_call spec_script_base (warm_up ++ [evening_tick])
           (start sample_params)).
  reflexivity.
Defined.

